(** * mongo-vcore-agent-python/agent.py: the joke-agent driver

    A shallow embedding of the script [agent.py] and the properties of
    its interaction with its three collaborators: the process
    environment, the Azure credential and the chat-agent client.

    The script is straight-line code that calls into two SDKs.  Each SDK
    call either returns an object or raises; an exception is caught
    nowhere, so the first one ends the script.  The embedding is an
    exception monad that also keeps a log of the calls the script makes,
    in the order it makes them.  The SDK objects are records of their
    methods, so that a world fixes what every call answers (this is what
    a test double does). *)

From Stdlib Require Import ZArith.
From stdpp Require Import base option strings list gmap.

Local Open Scope string_scope.
Local Open Scope list_scope.

(** ** Values exchanged with the collaborators *)

(** A Python exception: its class and its message. *)
Record exn := Exception { exc_class : string; exc_message : string }.

(** The result of a Python call: a value, or a raised exception. *)
Inductive result (A : Type) : Type :=
| Ok (a : A)
| Raise (e : exn).
Arguments Ok {A} a.
Arguments Raise {A} e.

(** [azure.core.credentials.AccessToken]. *)
Record AccessToken := { token : string; expires_on : Z }.

(** The credential object: the one method the script calls. *)
Record Credential := { get_token : string → result AccessToken }.

(** The response of a run: the script reads its [.text]. *)
Record AgentRunResponse := { text : string }.

(** The agent returned by [create_agent]. *)
Record ChatAgent := { run : string → result AgentRunResponse }.

(** The client object: [create_agent(instructions=..., name=...)]. *)
Record ChatClient := { create_agent : string → string → result ChatAgent }.

(** The keyword arguments of [AzureOpenAIChatClient(...)].  [os.getenv]
    gives [None] for a variable that is not set, and the script hands
    that on as it is; [api_key] is a string literal in the script. *)
Record Config := {
  endpoint : option string;
  deployment_name : option string;
  api_version : option string;
  api_key : string
}.

(** Everything outside the script: [os.environ] and the two classes the
    script instantiates. *)
Record World := {
  environ : gmap string string;
  DefaultAzureCredential : result Credential;
  AzureOpenAIChatClient : Config → result ChatClient
}.

(** ** The log of calls *)

Inductive call :=
| CallDefaultAzureCredential
| CallGetToken (scope : string)
| CallGetenv (key : string)
| CallAzureOpenAIChatClient (cfg : Config)
| CallCreateAgent (instructions name : string)
| CallRun (prompt : string)
| CallPrint (s : string).

(** A log entry: the call, and the exception if the call raised. *)
Definition entry : Type := call * option exn.
Definition trace : Type := list entry.

Definition raised {A} (r : result A) : option exn :=
  match r with Ok _ => None | Raise e => Some e end.

(** ** The monad: a log of calls, and exceptions that nobody catches *)

Definition Py (A : Type) : Type := trace → trace * result A.

#[export] Instance Py_ret : MRet Py := λ A a t, (t, Ok a).

#[export] Instance Py_bind : MBind Py := λ A B k m t,
  match m t with
  | (t', Ok a) => k a t'
  | (t', Raise e) => (t', Raise e)
  end.

(** A call out of the script: appended to the log together with the
    exception it raised, if any; its answer is the world's. *)
Definition logged {A} (c : call) (r : result A) : Py A :=
  λ t, (t ++ [(c, raised r)], r).

(** [os.getenv(key)]: [os.environ.get(key)], never raises. *)
Definition getenv (w : World) (key : string) : Py (option string) :=
  logged (CallGetenv key) (Ok (environ w !! key)).

(** [print(s)]: one line on standard output. *)
Definition print (s : string) : Py unit :=
  logged (CallPrint s) (Ok ()).

(** The SDK calls of the script, each logged with its arguments. *)
Definition new_DefaultAzureCredential (w : World) : Py Credential :=
  logged CallDefaultAzureCredential (DefaultAzureCredential w).

Definition call_get_token (c : Credential) (scope : string) : Py AccessToken :=
  logged (CallGetToken scope) (get_token c scope).

Definition new_AzureOpenAIChatClient (w : World) (cfg : Config) : Py ChatClient :=
  logged (CallAzureOpenAIChatClient cfg) (AzureOpenAIChatClient w cfg).

Definition call_create_agent (cl : ChatClient) (instructions name : string)
  : Py ChatAgent :=
  logged (CallCreateAgent instructions name) (create_agent cl instructions name).

Definition call_run (a : ChatAgent) (prompt : string) : Py AgentRunResponse :=
  logged (CallRun prompt) (run a prompt).

(** ** The script *)

(** Lines 7-20: the module-level statements that bind [credential],
    [token] and [agent].  Keyword arguments are evaluated left to right
    before the constructor is called. *)
Definition module_level (w : World) : Py ChatAgent :=
  credential ← new_DefaultAzureCredential w;
  token ← call_get_token credential "https://ai.azure.com/.default";
  endpoint ← getenv w "AZURE_OPENAI_ENDPOINT";
  deployment_name ← getenv w "AZURE_OPENAI_CHAT_DEPLOYMENT_NAME";
  api_version ← getenv w "AZURE_OPENAI_API_VERSION";
  client ← new_AzureOpenAIChatClient w
             {| endpoint := endpoint;
                deployment_name := deployment_name;
                api_version := api_version;
                api_key := EmptyString |};
  call_create_agent client "You are good at telling jokes." "Joker".

(** Lines 22-24: [async def main()].  [await] hands control back until
    the response is there; the next statement runs with the response. *)
Definition main (agent : ChatAgent) : Py unit :=
  result ← call_run agent "Tell me a joke about a pirate.";
  print (text result).

(** [asyncio.run(coro)] runs the coroutine to its end. *)
Definition asyncio_run {A} (coro : Py A) : Py A := coro.

(** The whole module, executed under the module name [__name__]
    (lines 7-27). *)
Definition agent_py (w : World) (__name__ : string) : Py unit :=
  agent ← module_level w;
  if String.eqb __name__ "__main__" then asyncio_run (main agent) else mret ().

(** [python agent.py]: the module runs as ["__main__"], from an empty
    log. *)
Definition python (w : World) : trace * result unit :=
  agent_py w "__main__" [].

(** [import agent] from another module. *)
Definition import_agent (w : World) : trace * result unit :=
  agent_py w "agent" [].

(** The exit status of the interpreter: 0 when the script ends, 1 when
    an exception reaches the top level. *)
Definition exit_status (r : result unit) : Z :=
  match r with Ok _ => 0 | Raise _ => 1 end.

(** ** Reading the log *)

Definition calls (t : trace) : list call := t.*1.

(** The prompts of the [run] calls, in order. *)
Definition prompts_run (t : trace) : list string :=
  omap (λ c, match c with CallRun p => Some p | _ => None end) (calls t).


(** The [create_agent] and [run] calls, in the order they were made. *)
Definition agent_calls (t : trace) : list call :=
  omap (λ c, match c with
             | CallCreateAgent _ _ | CallRun _ => Some c
             | _ => None
             end) (calls t).

(** The scopes of the [get_token] calls. *)
Definition scopes_requested (t : trace) : list string :=
  omap (λ c, match c with CallGetToken s => Some s | _ => None end) (calls t).

(** The keyword arguments of the client constructions. *)
Definition clients_constructed (t : trace) : list Config :=
  omap (λ c, match c with CallAzureOpenAIChatClient cfg => Some cfg | _ => None end)
       (calls t).

(** The arguments of the [print] calls: the lines of standard output. *)
Definition printed (t : trace) : list string :=
  omap (λ c, match c with CallPrint s => Some s | _ => None end) (calls t).

(** ** What the properties speak of *)

(** The configuration is valid when the three variables the script
    reads are set. *)
Definition required_variables : list string :=
  ["AZURE_OPENAI_ENDPOINT"; "AZURE_OPENAI_CHAT_DEPLOYMENT_NAME";
   "AZURE_OPENAI_API_VERSION"].

Definition is_set (env : gmap string string) (key : string) : bool :=
  match env !! key with Some _ => true | None => false end.

Definition valid_configuration (env : gmap string string) : bool :=
  forallb (is_set env) required_variables.

(** One [create_agent] call with the fixed instructions and name, then
    one [run] call with the fixed prompt, and no other call of either
    kind. *)
Definition one_create_then_one_run (t : trace) : Prop :=
  agent_calls t =
    [CallCreateAgent "You are good at telling jokes." "Joker";
     CallRun "Tell me a joke about a pirate."].

(** A value is sourced from the environment when some variable holds
    it. *)
Definition from_environment (env : gmap string string) (v : string) : Prop :=
  ∃ key, env !! key = Some v.

(** A required keyword argument is [None]. *)
Definition missing_required (cfg : Config) : bool :=
  match endpoint cfg, deployment_name cfg, api_version cfg with
  | Some _, Some _, Some _ => false
  | _, _, _ => true
  end.

(** The calls that go to the downstream client. *)
Definition is_client_call (c : call) : bool :=
  match c with
  | CallAzureOpenAIChatClient _ | CallCreateAgent _ _ | CallRun _ => true
  | _ => false
  end.

(** The downstream client fails on [cfg]: its constructor raises, or
    else [create_agent] raises, or else [run] raises. *)
Definition client_call_fails (w : World) (cfg : Config) : Prop :=
  match AzureOpenAIChatClient w cfg with
  | Raise _ => True
  | Ok cl =>
      match create_agent cl "You are good at telling jokes." "Joker" with
      | Raise _ => True
      | Ok a =>
          match run a "Tell me a joke about a pirate." with
          | Raise _ => True
          | Ok _ => False
          end
      end
  end.

(** Modelled from the spec: the chat client is a package the script
    imports, not code of the script.  The spec says of it that the
    absence of a required value is left to the downstream client,
    which fails with a configuration error. *)
Definition rejecting_client (w : World) : Prop :=
  ∀ cfg, missing_required cfg = true → client_call_fails w cfg.

(** The unchecked value reaches the client: a client is constructed
    with a required argument that is [None]. *)
Definition passes_missing_value (t : trace) : Prop :=
  ∃ cfg, cfg ∈ clients_constructed t ∧ missing_required cfg = true.


(** The variables read with [os.getenv], in the order they are read. *)
Definition variables_read (t : trace) : list string :=
  omap (λ c, match c with CallGetenv k => Some k | _ => None end) (calls t).

(** The credential is constructed and answers the token request. *)
Definition token_acquired (w : World) : bool :=
  match DefaultAzureCredential w with
  | Ok c =>
      match get_token c "https://ai.azure.com/.default" with
      | Ok _ => true
      | Raise _ => false
      end
  | Raise _ => false
  end.

(** The calls of the statements of the script in source order (lines 7,
    8, 12, 13, 14, 11, 17, 23, 24), for an environment [env] and a
    printed text [s]. *)
Definition script_calls (env : gmap string string) (s : string) : list call :=
  [CallDefaultAzureCredential;
   CallGetToken "https://ai.azure.com/.default";
   CallGetenv "AZURE_OPENAI_ENDPOINT";
   CallGetenv "AZURE_OPENAI_CHAT_DEPLOYMENT_NAME";
   CallGetenv "AZURE_OPENAI_API_VERSION";
   CallAzureOpenAIChatClient
     {| endpoint := env !! "AZURE_OPENAI_ENDPOINT";
        deployment_name := env !! "AZURE_OPENAI_CHAT_DEPLOYMENT_NAME";
        api_version := env !! "AZURE_OPENAI_API_VERSION";
        api_key := EmptyString |};
   CallCreateAgent "You are good at telling jokes." "Joker";
   CallRun "Tell me a joke about a pirate.";
   CallPrint s].

(** ** Worlds to run the script in *)

Definition joke : AgentRunResponse :=
  {| text := "Why did the pirate go to school? To improve his arrr-ticulation!" |}.

Definition mock_agent (r : AgentRunResponse) : ChatAgent :=
  {| run := λ _, Ok r |}.

Definition mock_client (r : AgentRunResponse) : ChatClient :=
  {| create_agent := λ _ _, Ok (mock_agent r) |}.

Definition mock_credential (tok : string) : Credential :=
  {| get_token := λ _, Ok {| token := tok; expires_on := 1762128000 |} |}.

Definition full_environ : gmap string string :=
  <["AZURE_OPENAI_ENDPOINT" := "https://example.openai.azure.com/"]>
  (<["AZURE_OPENAI_CHAT_DEPLOYMENT_NAME" := "gpt-4o"]>
  (<["AZURE_OPENAI_API_VERSION" := "2024-10-21"]>
  (<["AZURE_OPENAI_API_KEY" := "0123456789abcdef"]> ∅))).

(** All variables set, a credential that answers, a mocked client. *)
Definition mocked_world : World :=
  {| environ := full_environ;
     DefaultAzureCredential := Ok (mock_credential "eyJ0eXAi");
     AzureOpenAIChatClient := λ _, Ok (mock_client joke) |}.

(** The credential object is there, but the identity service refuses
    the token request. *)
Definition ClientAuthenticationError : exn :=
  Exception "ClientAuthenticationError"
            "DefaultAzureCredential failed to retrieve a token".

Definition refusing_credential : Credential :=
  {| get_token := λ _, Raise ClientAuthenticationError |}.

Definition unauthenticated_world : World :=
  {| environ := full_environ;
     DefaultAzureCredential := Ok refusing_credential;
     AzureOpenAIChatClient := λ _, Ok (mock_client joke) |}.

(** Only the API version is set. *)
Definition sparse_environ : gmap string string :=
  {["AZURE_OPENAI_API_VERSION" := "2024-10-21"]}.

Definition ServiceInitializationError : exn :=
  Exception "ServiceInitializationError" "Azure OpenAI endpoint is required".

Definition validating_client (cfg : Config) : result ChatClient :=
  if missing_required cfg then Raise ServiceInitializationError
  else Ok (mock_client joke).

Definition misconfigured_world : World :=
  {| environ := sparse_environ;
     DefaultAzureCredential := Ok (mock_credential "eyJ0eXAi");
     AzureOpenAIChatClient := validating_client |}.

Definition misconfigured_unauthenticated_world : World :=
  {| environ := sparse_environ;
     DefaultAzureCredential := Ok refusing_credential;
     AzureOpenAIChatClient := validating_client |}.

Definition ServiceResponseException : exn :=
  Exception "ServiceResponseException" "the chat completion request failed".

Definition failing_agent : ChatAgent :=
  {| run := λ _, Raise ServiceResponseException |}.

(** The remote run fails. *)
Definition failing_run_world : World :=
  {| environ := full_environ;
     DefaultAzureCredential := Ok (mock_credential "eyJ0eXAi");
     AzureOpenAIChatClient :=
       λ _, Ok {| create_agent := λ _ _, Ok failing_agent |} |}.

(** Agent creation fails. *)
Definition failing_create_world : World :=
  {| environ := full_environ;
     DefaultAzureCredential := Ok (mock_credential "eyJ0eXAi");
     AzureOpenAIChatClient :=
       λ _, Ok {| create_agent := λ _ _, Raise ServiceInitializationError |} |}.

(** The credential object cannot be constructed. *)
Definition no_credential_world : World :=
  {| environ := full_environ;
     DefaultAzureCredential :=
       Raise (Exception "ValueError"
                "Invalid value for environment variable AZURE_TOKEN_CREDENTIALS");
     AzureOpenAIChatClient := λ _, Ok (mock_client joke) |}.

(** The same world with another token behind the same credential
    object. *)
Definition other_token_world : World :=
  {| environ := full_environ;
     DefaultAzureCredential := Ok (mock_credential "c2VjcmV0");
     AzureOpenAIChatClient := λ _, Ok (mock_client joke) |}.

(** The three variables of [full_environ], no [AZURE_OPENAI_API_KEY],
    and variables the script has no use for. *)
Definition other_environ : gmap string string :=
  <["HOME" := "/home/pirate"]>
  (<["AZURE_OPENAI_API_KEY" := "fedcba9876543210"]>
  (<["AZURE_TENANT_ID" := "72f988bf"]> full_environ)).

Definition other_environ_world : World :=
  {| environ := other_environ;
     DefaultAzureCredential := Ok (mock_credential "eyJ0eXAi");
     AzureOpenAIChatClient := λ _, Ok (mock_client joke) |}.

(** ** Running the script by hand *)

(** Unfold the script down to the answers of the world. *)
Ltac unfold_script :=
  cbv [python import_agent agent_py module_level main asyncio_run
       new_DefaultAzureCredential call_get_token new_AzureOpenAIChatClient
       call_create_agent call_run getenv print logged raised
       mbind Py_bind mret Py_ret];
  cbn [app].

(** The next answer the script is waiting for: the one a hypothesis
    gives, or else both cases. *)
Ltac next_answer :=
  match goal with
  | |- context [String.eqb "__main__" "__main__"] =>
      rewrite String.eqb_refl
  | H : String.eqb ?n "__main__" = _
    |- context [if String.eqb ?n "__main__" then _ else _] => rewrite H
  | H : ?r = _ |- context [match ?r with Ok _ => _ | Raise _ => _ end] =>
      rewrite H
  | |- context [match ?r with Ok _ => _ | Raise _ => _ end] =>
      destruct r eqn:?
  | |- context [if String.eqb ?n "__main__" then _ else _] =>
      destruct (String.eqb n "__main__") eqn:?
  end.

Ltac run_script := unfold_script; repeat (next_answer; unfold_script).

(** Membership in a list that is written out. *)
Ltac elem_of_cases H :=
  repeat (apply elem_of_cons in H as [H|H]); [..|apply elem_of_nil in H; contradiction].

(** ** The script on the mocked world *)

Example python_mocked_world :
  python mocked_world =
    ([(CallDefaultAzureCredential, None);
      (CallGetToken "https://ai.azure.com/.default", None);
      (CallGetenv "AZURE_OPENAI_ENDPOINT", None);
      (CallGetenv "AZURE_OPENAI_CHAT_DEPLOYMENT_NAME", None);
      (CallGetenv "AZURE_OPENAI_API_VERSION", None);
      (CallAzureOpenAIChatClient
         {| endpoint := Some "https://example.openai.azure.com/";
            deployment_name := Some "gpt-4o";
            api_version := Some "2024-10-21";
            api_key := EmptyString |}, None);
      (CallCreateAgent "You are good at telling jokes." "Joker", None);
      (CallRun "Tell me a joke about a pirate.", None);
      (CallPrint (text joke), None)],
     Ok ()).
Proof. vm_compute. reflexivity. Qed.

Example python_unauthenticated_world :
  python unauthenticated_world =
    ([(CallDefaultAzureCredential, None);
      (CallGetToken "https://ai.azure.com/.default",
       Some ClientAuthenticationError)],
     Raise ClientAuthenticationError).
Proof. vm_compute. reflexivity. Qed.

(** ** Create once, then run once *)

Lemma valid_configuration_set (env : gmap string string) :
  valid_configuration env = true ↔
  ∃ e d v, env !! "AZURE_OPENAI_ENDPOINT" = Some e ∧
           env !! "AZURE_OPENAI_CHAT_DEPLOYMENT_NAME" = Some d ∧
           env !! "AZURE_OPENAI_API_VERSION" = Some v.
Proof.
  unfold valid_configuration, required_variables, is_set. simpl.
  destruct (env !! "AZURE_OPENAI_ENDPOINT"),
           (env !! "AZURE_OPENAI_CHAT_DEPLOYMENT_NAME"),
           (env !! "AZURE_OPENAI_API_VERSION"); simpl.
  1: split; [intros _; do 3 eexists; repeat split | reflexivity].
  all: split; [discriminate|];
    intros (e & d & v & He & Hd & Hv); discriminate.
Qed.

(** C1, as stated, fails: with every variable set and a mocked client
    that answers every call, the script makes no [create_agent] call and
    no [run] call when the token request is refused, because the token
    is requested first and its failure ends the script. *)
Lemma create_then_run_refused_token :
  valid_configuration (environ unauthenticated_world) = true ∧
  (∀ cfg, AzureOpenAIChatClient unauthenticated_world cfg
          = Ok (mock_client joke)) ∧
  agent_calls (python unauthenticated_world).1 = [] ∧
  ¬ one_create_then_one_run (python unauthenticated_world).1.
Proof.
  split; [vm_compute; reflexivity|].
  split; [intros cfg; reflexivity|].
  split; [vm_compute; reflexivity|].
  unfold one_create_then_one_run. vm_compute. discriminate.
Qed.

(** C1, amended: for every valid configuration (the three variables are
    set) and every mocked client whose constructor and [create_agent]
    return, and when the credential is acquired, running the script
    makes exactly one [create_agent] call, with the instructions
    "You are good at telling jokes." and the name "Joker", and after it
    exactly one [run] call, with the prompt
    "Tell me a joke about a pirate."; there is no other call of either
    kind. *)
Theorem create_once_then_run_once
    (w : World) (c : Credential) (tk : AccessToken)
    (e d v : string) (cl : ChatClient) (a : ChatAgent) :
  environ w !! "AZURE_OPENAI_ENDPOINT" = Some e →
  environ w !! "AZURE_OPENAI_CHAT_DEPLOYMENT_NAME" = Some d →
  environ w !! "AZURE_OPENAI_API_VERSION" = Some v →
  DefaultAzureCredential w = Ok c →
  get_token c "https://ai.azure.com/.default" = Ok tk →
  AzureOpenAIChatClient w
    {| endpoint := Some e; deployment_name := Some d;
       api_version := Some v; api_key := EmptyString |} = Ok cl →
  create_agent cl "You are good at telling jokes." "Joker" = Ok a →
  one_create_then_one_run (python w).1.
Proof.
  intros He Hd Hv Hc Htk Hcl Ha. unfold one_create_then_one_run.
  unfold_script. rewrite He, Hd, Hv.
  run_script; reflexivity.
Qed.

Lemma create_once_then_run_once_mocked :
  one_create_then_one_run (python mocked_world).1.
Proof.
  apply (create_once_then_run_once mocked_world
           (mock_credential "eyJ0eXAi")
           {| token := "eyJ0eXAi"; expires_on := 1762128000 |}
           "https://example.openai.azure.com/" "gpt-4o" "2024-10-21"
           (mock_client joke) (mock_agent joke));
    vm_compute; reflexivity.
Defined.

(** ** What is printed *)

(** C2: whatever response the agent's [run] call returns, the script
    prints exactly one line, and that line is the response's [.text],
    unchanged.  (The module-level statements have bound [agent] to [a];
    [r] is what [a.run] answers to the prompt.) *)
Theorem printed_is_response_text
    (w : World) (t0 : trace) (a : ChatAgent) (r : AgentRunResponse) :
  module_level w [] = (t0, Ok a) →
  run a "Tell me a joke about a pirate." = Ok r →
  printed (python w).1 = [text r].
Proof.
  intros Hm Hr. revert Hm.
  run_script; intros Hm; try discriminate Hm;
    injection Hm as _ ->; try congruence.
  match goal with
  | H : run _ _ = Ok ?r' |- _ =>
      replace r with r' by congruence; reflexivity
  end.
Qed.

Lemma printed_is_response_text_mocked :
  printed (python mocked_world).1 = [text joke].
Proof.
  apply (printed_is_response_text mocked_world
           (module_level mocked_world []).1 (mock_agent joke) joke);
    vm_compute; reflexivity.
Defined.

(** ** The configuration handed to the client *)

(** C3, as stated, fails for the API key: with every variable set,
    [AZURE_OPENAI_API_KEY] included, the API key the client is
    constructed with is the empty string, which no variable of the
    environment holds. *)
Lemma api_key_not_from_environment :
  environ mocked_world !! "AZURE_OPENAI_API_KEY" = Some "0123456789abcdef" ∧
  ∃ cfg, clients_constructed (python mocked_world).1 = [cfg] ∧
         api_key cfg = EmptyString ∧
         ¬ from_environment (environ mocked_world) (api_key cfg).
Proof.
  split; [vm_compute; reflexivity|].
  eexists. split; [vm_compute; reflexivity|].
  split; [reflexivity|].
  intros [key Hkey]. simpl in Hkey. unfold full_environ in Hkey.
  repeat (rewrite lookup_insert in Hkey; case_decide; [discriminate Hkey|]).
  rewrite lookup_empty in Hkey. discriminate Hkey.
Qed.

(** C3, amended: the endpoint, the deployment name and the API version
    the client is constructed with are the values of
    [AZURE_OPENAI_ENDPOINT], [AZURE_OPENAI_CHAT_DEPLOYMENT_NAME] and
    [AZURE_OPENAI_API_VERSION] in the process environment ([None] for a
    variable that is not set), and the API key is the empty string
    literal, whatever the environment holds.  Nothing is validated
    first: once the credential is acquired the constructor is called,
    exactly once and with these values, in every environment. *)
Theorem client_constructed_from_environment
    (w : World) (__name__ : string) (c : Credential) (tk : AccessToken) :
  DefaultAzureCredential w = Ok c →
  get_token c "https://ai.azure.com/.default" = Ok tk →
  clients_constructed (agent_py w __name__ []).1 =
    [{| endpoint := environ w !! "AZURE_OPENAI_ENDPOINT";
        deployment_name := environ w !! "AZURE_OPENAI_CHAT_DEPLOYMENT_NAME";
        api_version := environ w !! "AZURE_OPENAI_API_VERSION";
        api_key := EmptyString |}].
Proof.
  intros Hc Htk. run_script; reflexivity.
Qed.

Lemma client_constructed_from_sparse_environment :
  clients_constructed
    (agent_py {| environ := sparse_environ;
                 DefaultAzureCredential := Ok (mock_credential "eyJ0eXAi");
                 AzureOpenAIChatClient := λ _, Ok (mock_client joke) |}
              "__main__" []).1 =
    [{| endpoint := None; deployment_name := None;
        api_version := Some "2024-10-21"; api_key := EmptyString |}].
Proof.
  apply (client_constructed_from_environment
           {| environ := sparse_environ;
              DefaultAzureCredential := Ok (mock_credential "eyJ0eXAi");
              AzureOpenAIChatClient := λ _, Ok (mock_client joke) |}
           "__main__" (mock_credential "eyJ0eXAi")
           {| token := "eyJ0eXAi"; expires_on := 1762128000 |});
    reflexivity.
Defined.

(** ** A required variable is not set *)

Lemma validating_client_rejects (env : gmap string string) (cr : result Credential) :
  rejecting_client {| environ := env; DefaultAzureCredential := cr;
                      AzureOpenAIChatClient := validating_client |}.
Proof.
  intros cfg Hmiss. unfold client_call_fails. simpl.
  unfold validating_client. rewrite Hmiss. exact I.
Qed.

Lemma invalid_configuration_missing (env : gmap string string) :
  valid_configuration env = false →
  missing_required
    {| endpoint := env !! "AZURE_OPENAI_ENDPOINT";
       deployment_name := env !! "AZURE_OPENAI_CHAT_DEPLOYMENT_NAME";
       api_version := env !! "AZURE_OPENAI_API_VERSION";
       api_key := EmptyString |} = true.
Proof.
  unfold valid_configuration, required_variables, is_set, missing_required.
  simpl.
  destruct (env !! "AZURE_OPENAI_ENDPOINT"),
           (env !! "AZURE_OPENAI_CHAT_DEPLOYMENT_NAME"),
           (env !! "AZURE_OPENAI_API_VERSION"); simpl; congruence.
Qed.

(** C4, as stated, fails: with two required variables not set and a
    client that rejects such a configuration, the missing value never
    reaches the client when the token request is refused; the script
    ends at the token request and constructs no client. *)
Lemma missing_variable_refused_token :
  valid_configuration (environ misconfigured_unauthenticated_world) = false ∧
  rejecting_client misconfigured_unauthenticated_world ∧
  python misconfigured_unauthenticated_world =
    ([(CallDefaultAzureCredential, None);
      (CallGetToken "https://ai.azure.com/.default",
       Some ClientAuthenticationError)],
     Raise ClientAuthenticationError) ∧
  ¬ passes_missing_value (python misconfigured_unauthenticated_world).1.
Proof.
  split; [vm_compute; reflexivity|].
  split; [apply validating_client_rejects|].
  split; [vm_compute; reflexivity|].
  intros (cfg & Hin & _). vm_compute in Hin. inversion Hin.
Qed.

(** C4, amended: in every environment in which a required variable
    (endpoint, deployment name or API version) is not set, and with a
    downstream client that rejects such a configuration, the process
    exits with a non-zero status and has printed nothing; and when the
    credential is acquired, the script does not check the value itself:
    the missing value is passed to the client constructor, a call to the
    downstream client raises, and that call is the last thing the script
    does. *)
Theorem missing_variable_fails_downstream (w : World) :
  valid_configuration (environ w) = false →
  rejecting_client w →
  exit_status (python w).2 ≠ 0%Z ∧
  printed (python w).1 = [] ∧
  ∀ c tk,
    DefaultAzureCredential w = Ok c →
    get_token c "https://ai.azure.com/.default" = Ok tk →
    passes_missing_value (python w).1 ∧
    ∃ cc e, last (python w).1 = Some (cc, Some e) ∧
            is_client_call cc = true ∧
            (python w).2 = Raise e.
Proof.
  intros Hv Hrej. apply invalid_configuration_missing in Hv.
  specialize (Hrej _ Hv). unfold client_call_fails in Hrej.
  assert (Hpass : ∀ t,
    clients_constructed t =
      [{| endpoint := environ w !! "AZURE_OPENAI_ENDPOINT";
          deployment_name := environ w !! "AZURE_OPENAI_CHAT_DEPLOYMENT_NAME";
          api_version := environ w !! "AZURE_OPENAI_API_VERSION";
          api_key := EmptyString |}] →
    passes_missing_value t).
  { intros t Ht. eexists. rewrite Ht. split; [apply list_elem_of_here|exact Hv]. }
  revert Hrej. run_script; intros Hrej; try contradiction.
  all: split; [discriminate|]; split; [reflexivity|].
  all: intros c' tk' Hc' Htk'; try discriminate Hc'.
  all: injection Hc' as <-; try congruence.
  all: split; [apply Hpass; reflexivity|].
  all: do 2 eexists; split; [reflexivity|]; split; reflexivity.
Qed.

Lemma missing_variable_fails_downstream_misconfigured :
  exit_status (python misconfigured_world).2 ≠ 0%Z ∧
  printed (python misconfigured_world).1 = [] ∧
  passes_missing_value (python misconfigured_world).1 ∧
  ∃ cc e, last (python misconfigured_world).1 = Some (cc, Some e) ∧
          is_client_call cc = true ∧
          (python misconfigured_world).2 = Raise e.
Proof.
  destruct (missing_variable_fails_downstream misconfigured_world)
    as (Hexit & Hprinted & Hclient).
  - vm_compute; reflexivity.
  - apply validating_client_rejects.
  - split; [exact Hexit|]. split; [exact Hprinted|].
    apply (Hclient (mock_credential "eyJ0eXAi")
                   {| token := "eyJ0eXAi"; expires_on := 1762128000 |});
      reflexivity.
Defined.

(** ** Failures *)

Example python_failing_run_world :
  python failing_run_world =
    ([(CallDefaultAzureCredential, None);
      (CallGetToken "https://ai.azure.com/.default", None);
      (CallGetenv "AZURE_OPENAI_ENDPOINT", None);
      (CallGetenv "AZURE_OPENAI_CHAT_DEPLOYMENT_NAME", None);
      (CallGetenv "AZURE_OPENAI_API_VERSION", None);
      (CallAzureOpenAIChatClient
         {| endpoint := Some "https://example.openai.azure.com/";
            deployment_name := Some "gpt-4o";
            api_version := Some "2024-10-21";
            api_key := EmptyString |}, None);
      (CallCreateAgent "You are good at telling jokes." "Joker", None);
      (CallRun "Tell me a joke about a pirate.", Some ServiceResponseException)],
     Raise ServiceResponseException).
Proof. vm_compute. reflexivity. Qed.

Example python_failing_create_world :
  python failing_create_world =
    ([(CallDefaultAzureCredential, None);
      (CallGetToken "https://ai.azure.com/.default", None);
      (CallGetenv "AZURE_OPENAI_ENDPOINT", None);
      (CallGetenv "AZURE_OPENAI_CHAT_DEPLOYMENT_NAME", None);
      (CallGetenv "AZURE_OPENAI_API_VERSION", None);
      (CallAzureOpenAIChatClient
         {| endpoint := Some "https://example.openai.azure.com/";
            deployment_name := Some "gpt-4o";
            api_version := Some "2024-10-21";
            api_key := EmptyString |}, None);
      (CallCreateAgent "You are good at telling jokes." "Joker",
       Some ServiceInitializationError)],
     Raise ServiceInitializationError).
Proof. vm_compute. reflexivity. Qed.

Example python_no_credential_world :
  python no_credential_world =
    ([(CallDefaultAzureCredential,
       Some (Exception "ValueError"
               "Invalid value for environment variable AZURE_TOKEN_CREDENTIALS"))],
     Raise (Exception "ValueError"
              "Invalid value for environment variable AZURE_TOKEN_CREDENTIALS")).
Proof. vm_compute. reflexivity. Qed.

(** C5: whenever a call of the script raises (constructing the
    credential, requesting the token, constructing the client, creating
    the agent or running the prompt), that very exception is the outcome
    of the script, which nothing catches; the failed call is the last
    call the script makes, it was not made before (no retry), and the
    process exits with a non-zero status. *)
Theorem failure_propagates (w : World) (c : call) (e : exn) :
  (c, Some e) ∈ (python w).1 →
  (python w).2 = Raise e ∧
  exit_status (python w).2 ≠ 0%Z ∧
  ∃ before, (python w).1 = before ++ [(c, Some e)] ∧ c ∉ calls before.
Proof.
  run_script; simpl; intros Hin; elem_of_cases Hin;
    try discriminate Hin; injection Hin as -> ->.
  all: split; [reflexivity|]; split; [discriminate|].
  all: match goal with
       | |- ∃ before, ?t = _ ∧ _ =>
           exists (removelast t); split; [reflexivity|]
       end.
  all: simpl; intros Hin; elem_of_cases Hin; discriminate Hin.
Qed.

Lemma failure_propagates_failing_run :
  (python failing_run_world).2 = Raise ServiceResponseException ∧
  exit_status (python failing_run_world).2 ≠ 0%Z ∧
  ∃ before,
    (python failing_run_world).1 =
      before ++ [(CallRun "Tell me a joke about a pirate.",
                  Some ServiceResponseException)] ∧
    CallRun "Tell me a joke about a pirate." ∉ calls before.
Proof.
  apply (failure_propagates failing_run_world
           (CallRun "Tell me a joke about a pirate.")
           ServiceResponseException).
  vm_compute. do 7 apply list_elem_of_further. apply list_elem_of_here.
Defined.

(** ** A single shot *)

(** C6: whatever the agent answers, and under whatever module name the
    script is executed, the log holds at most one [run] call: it splits
    into a part without a [run] call and a last part that is empty, or
    the [run] call that raised, or the [run] call followed by the print
    of the response's text and nothing more. *)
Theorem single_shot (w : World) (__name__ : string) :
  (List.length (prompts_run (agent_py w __name__ []).1) ≤ 1)%nat ∧
  ∃ before last_part,
    (agent_py w __name__ []).1 = before ++ last_part ∧
    prompts_run before = [] ∧
    (last_part = [] ∨
     (∃ e, last_part = [(CallRun "Tell me a joke about a pirate.", Some e)]) ∨
     (∃ r, last_part = [(CallRun "Tell me a joke about a pirate.", None);
                        (CallPrint (text r), None)])).
Proof.
  run_script; (split; [simpl; lia|]).
  all: match goal with
       | |- ∃ before last_part, ?t = _ ∧ _ =>
           first
             [ exists (take 7 t), (drop 7 t);
               split; [reflexivity|]; split; [reflexivity|];
               right; first [ left; eexists; reflexivity
                            | right; eexists; reflexivity ]
             | exists t, []; split; [symmetry; apply app_nil_r|];
               split; [reflexivity|]; left; reflexivity ]
       end.
Qed.

(** ** The token request *)

(** C7, as stated, fails: when [DefaultAzureCredential()] itself raises,
    the script ends there and the token is never requested. *)
Lemma token_not_requested_without_credential :
  scopes_requested (python no_credential_world).1 = [] ∧
  scopes_requested (python no_credential_world).1
    ≠ ["https://ai.azure.com/.default"].
Proof.
  split; [vm_compute; reflexivity|]. vm_compute. discriminate.
Qed.

(** C7, amended: on every execution in which the credential object is
    constructed, the token is requested exactly once, with the scope
    "https://ai.azure.com/.default", as the second call of the script,
    right after the credential is constructed: every construction of a
    client comes after it. *)
Theorem token_requested_once_first
    (w : World) (__name__ : string) (c : Credential) :
  DefaultAzureCredential w = Ok c →
  scopes_requested (agent_py w __name__ []).1
    = ["https://ai.azure.com/.default"] ∧
  ∃ outcome rest,
    (agent_py w __name__ []).1 =
      (CallDefaultAzureCredential, None)
      :: (CallGetToken "https://ai.azure.com/.default", outcome)
      :: rest ∧
    scopes_requested rest = [] ∧
    clients_constructed (agent_py w __name__ []).1 = clients_constructed rest.
Proof.
  intros Hc. run_script; (split; [reflexivity|]).
  all: match goal with
       | |- ∃ outcome rest, ?t = _ ∧ _ =>
           exists (nth 1 t (CallDefaultAzureCredential, None)).2, (drop 2 t)
       end.
  all: split; [reflexivity|]; split; reflexivity.
Qed.

Lemma token_requested_once_first_import :
  scopes_requested (agent_py mocked_world "agent" []).1
    = ["https://ai.azure.com/.default"] ∧
  ∃ outcome rest,
    (agent_py mocked_world "agent" []).1 =
      (CallDefaultAzureCredential, None)
      :: (CallGetToken "https://ai.azure.com/.default", outcome)
      :: rest ∧
    scopes_requested rest = [] ∧
    clients_constructed (agent_py mocked_world "agent" []).1
      = clients_constructed rest.
Proof.
  apply (token_requested_once_first mocked_world "agent"
           (mock_credential "eyJ0eXAi")).
  reflexivity.
Defined.

(** ** The order of the steps *)

(** C8: on every successful run of the script the log is, in this
    order and with nothing else in it: the credential and the token
    request; the three reads of the environment; the construction of
    the client with the values read; the creation of the agent with the
    fixed instructions and name; the one [run] call with the fixed
    prompt; and, once its response [r] is there, the print of
    [r.text]. *)
Theorem steps_in_order (w : World) (t : trace) :
  python w = (t, Ok ()) →
  ∃ c tk cl a r,
    DefaultAzureCredential w = Ok c ∧
    get_token c "https://ai.azure.com/.default" = Ok tk ∧
    AzureOpenAIChatClient w
      {| endpoint := environ w !! "AZURE_OPENAI_ENDPOINT";
         deployment_name := environ w !! "AZURE_OPENAI_CHAT_DEPLOYMENT_NAME";
         api_version := environ w !! "AZURE_OPENAI_API_VERSION";
         api_key := EmptyString |} = Ok cl ∧
    create_agent cl "You are good at telling jokes." "Joker" = Ok a ∧
    run a "Tell me a joke about a pirate." = Ok r ∧
    t = [(CallDefaultAzureCredential, None);
         (CallGetToken "https://ai.azure.com/.default", None);
         (CallGetenv "AZURE_OPENAI_ENDPOINT", None);
         (CallGetenv "AZURE_OPENAI_CHAT_DEPLOYMENT_NAME", None);
         (CallGetenv "AZURE_OPENAI_API_VERSION", None);
         (CallAzureOpenAIChatClient
            {| endpoint := environ w !! "AZURE_OPENAI_ENDPOINT";
               deployment_name := environ w !! "AZURE_OPENAI_CHAT_DEPLOYMENT_NAME";
               api_version := environ w !! "AZURE_OPENAI_API_VERSION";
               api_key := EmptyString |}, None);
         (CallCreateAgent "You are good at telling jokes." "Joker", None);
         (CallRun "Tell me a joke about a pirate.", None);
         (CallPrint (text r), None)].
Proof.
  run_script; intros Hrun; try discriminate Hrun.
  injection Hrun as <-. do 5 eexists.
  repeat (split; [first [eassumption | reflexivity]|]).
  reflexivity.
Qed.

Lemma steps_in_order_mocked :
  ∃ c tk cl a r,
    DefaultAzureCredential mocked_world = Ok c ∧
    get_token c "https://ai.azure.com/.default" = Ok tk ∧
    AzureOpenAIChatClient mocked_world
      {| endpoint := environ mocked_world !! "AZURE_OPENAI_ENDPOINT";
         deployment_name :=
           environ mocked_world !! "AZURE_OPENAI_CHAT_DEPLOYMENT_NAME";
         api_version := environ mocked_world !! "AZURE_OPENAI_API_VERSION";
         api_key := EmptyString |} = Ok cl ∧
    create_agent cl "You are good at telling jokes." "Joker" = Ok a ∧
    run a "Tell me a joke about a pirate." = Ok r ∧
    (python mocked_world).1 =
        [(CallDefaultAzureCredential, None);
         (CallGetToken "https://ai.azure.com/.default", None);
         (CallGetenv "AZURE_OPENAI_ENDPOINT", None);
         (CallGetenv "AZURE_OPENAI_CHAT_DEPLOYMENT_NAME", None);
         (CallGetenv "AZURE_OPENAI_API_VERSION", None);
         (CallAzureOpenAIChatClient
            {| endpoint := environ mocked_world !! "AZURE_OPENAI_ENDPOINT";
               deployment_name :=
                 environ mocked_world !! "AZURE_OPENAI_CHAT_DEPLOYMENT_NAME";
               api_version :=
                 environ mocked_world !! "AZURE_OPENAI_API_VERSION";
               api_key := EmptyString |}, None);
         (CallCreateAgent "You are good at telling jokes." "Joker", None);
         (CallRun "Tell me a joke about a pirate.", None);
         (CallPrint (text r), None)].
Proof.
  apply (steps_in_order mocked_world (python mocked_world).1).
  vm_compute. reflexivity.
Defined.

(** ** The token is not used *)

(** C9: the token the credential returns is passed to nothing.  Every
    client is constructed with the empty string as its API key, and two
    executions that differ only in the token the credential returns
    (same environment, same client class, the token request answered in
    both) have the same log, hence the same configuration given to the
    client and the same printed lines, and the same outcome. *)
Theorem token_noninterference
    (w1 w2 : World) (__name__ : string)
    (c1 c2 : Credential) (tk1 tk2 : AccessToken) :
  environ w1 = environ w2 →
  AzureOpenAIChatClient w1 = AzureOpenAIChatClient w2 →
  DefaultAzureCredential w1 = Ok c1 →
  DefaultAzureCredential w2 = Ok c2 →
  get_token c1 "https://ai.azure.com/.default" = Ok tk1 →
  get_token c2 "https://ai.azure.com/.default" = Ok tk2 →
  agent_py w1 __name__ [] = agent_py w2 __name__ [] ∧
  Forall (λ cfg, api_key cfg = EmptyString)
         (clients_constructed (agent_py w1 __name__ []).1).
Proof.
  intros Henv Hcl Hc1 Hc2 Htk1 Htk2.
  unfold_script. rewrite Henv, Hcl.
  run_script; (split; [reflexivity|]); repeat constructor.
Qed.

Lemma token_noninterference_mocked :
  token {| token := "eyJ0eXAi"; expires_on := 1762128000 |}
    ≠ token {| token := "c2VjcmV0"; expires_on := 1762128000 |} ∧
  agent_py mocked_world "__main__" [] = agent_py other_token_world "__main__" [] ∧
  Forall (λ cfg, api_key cfg = EmptyString)
         (clients_constructed (agent_py mocked_world "__main__" []).1).
Proof.
  split; [discriminate|].
  apply (token_noninterference mocked_world other_token_world "__main__"
           (mock_credential "eyJ0eXAi") (mock_credential "c2VjcmV0")
           {| token := "eyJ0eXAi"; expires_on := 1762128000 |}
           {| token := "c2VjcmV0"; expires_on := 1762128000 |});
    reflexivity.
Defined.

(** ** What the [__main__] guard guards *)

Example import_agent_mocked_world :
  import_agent mocked_world =
    ([(CallDefaultAzureCredential, None);
      (CallGetToken "https://ai.azure.com/.default", None);
      (CallGetenv "AZURE_OPENAI_ENDPOINT", None);
      (CallGetenv "AZURE_OPENAI_CHAT_DEPLOYMENT_NAME", None);
      (CallGetenv "AZURE_OPENAI_API_VERSION", None);
      (CallAzureOpenAIChatClient
         {| endpoint := Some "https://example.openai.azure.com/";
            deployment_name := Some "gpt-4o";
            api_version := Some "2024-10-21";
            api_key := EmptyString |}, None);
      (CallCreateAgent "You are good at telling jokes." "Joker", None)],
     Ok ()).
Proof. vm_compute. reflexivity. Qed.



(** ** Beyond the environment variables the script reads *)

(** X1: the script hands nothing of the environment to anyone but the
    values of the three variables it reads.  When the credential
    constructor and the client constructor answer alike in two worlds
    and the environments agree on [AZURE_OPENAI_ENDPOINT],
    [AZURE_OPENAI_CHAT_DEPLOYMENT_NAME] and [AZURE_OPENAI_API_VERSION],
    the script makes the same calls with the same arguments in both,
    whatever else the environments hold ([AZURE_OPENAI_API_KEY]
    included). *)
Theorem calls_depend_on_three_variables (w1 w2 : World) (__name__ : string) :
  (∀ k, k ∈ required_variables → environ w1 !! k = environ w2 !! k) →
  DefaultAzureCredential w1 = DefaultAzureCredential w2 →
  AzureOpenAIChatClient w1 = AzureOpenAIChatClient w2 →
  calls (agent_py w1 __name__ []).1 = calls (agent_py w2 __name__ []).1.
Proof.
  intros Henv Hc Hcl. unfold required_variables in Henv.
  assert (He := Henv "AZURE_OPENAI_ENDPOINT" ltac:(repeat constructor)).
  assert (Hd := Henv "AZURE_OPENAI_CHAT_DEPLOYMENT_NAME" ltac:(repeat constructor)).
  assert (Hv := Henv "AZURE_OPENAI_API_VERSION" ltac:(repeat constructor)).
  unfold_script. rewrite He, Hd, Hv, Hc, Hcl. reflexivity.
Qed.

Lemma calls_depend_on_three_variables_api_key :
  environ mocked_world !! "AZURE_OPENAI_API_KEY"
    ≠ environ other_environ_world !! "AZURE_OPENAI_API_KEY" ∧
  calls (agent_py mocked_world "__main__" []).1
    = calls (agent_py other_environ_world "__main__" []).1.
Proof.
  split; [vm_compute; discriminate|].
  apply (calls_depend_on_three_variables mocked_world other_environ_world
           "__main__");
    [|reflexivity|reflexivity].
  intros k Hk. unfold required_variables in Hk.
  elem_of_cases Hk; subst k; vm_compute; reflexivity.
Defined.

(** X2: the environment is read only once the token is there, and then
    all three variables are read, in the order endpoint, deployment
    name, API version, whether or not they are set: a variable that is
    not set does not stop the reading of the next one. *)
Theorem environment_read_after_token (w : World) (__name__ : string) :
  variables_read (agent_py w __name__ []).1 =
    if token_acquired w then required_variables else [].
Proof.
  unfold token_acquired. run_script; reflexivity.
Qed.

(** ** When the script reaches its print *)

(** X3: the script calls [print] exactly when each of its five calls
    into the SDKs has returned (the credential constructor, the token
    request, the client constructor on the values read from the
    environment, [create_agent] and [run]), and then it calls it once,
    with the text of the response [run] returned.  On every other path
    [print] is not called; the script puts no condition of its own on
    the environment. *)
Theorem print_called_iff_all_calls_return (w : World) (s : string) :
  (s ∈ printed (python w).1 ↔
   ∃ c tk cl a r,
     DefaultAzureCredential w = Ok c ∧
     get_token c "https://ai.azure.com/.default" = Ok tk ∧
     AzureOpenAIChatClient w
       {| endpoint := environ w !! "AZURE_OPENAI_ENDPOINT";
          deployment_name := environ w !! "AZURE_OPENAI_CHAT_DEPLOYMENT_NAME";
          api_version := environ w !! "AZURE_OPENAI_API_VERSION";
          api_key := EmptyString |} = Ok cl ∧
     create_agent cl "You are good at telling jokes." "Joker" = Ok a ∧
     run a "Tell me a joke about a pirate." = Ok r ∧
     s = text r) ∧
  (List.length (printed (python w).1) ≤ 1)%nat.
Proof.
  split; [split|].
  - run_script; simpl; intros Hin; elem_of_cases Hin. subst s.
    do 5 eexists. repeat (split; [first [eassumption | reflexivity]|]).
    reflexivity.
  - intros (c & tk & cl & a & r & Hc & Htk & Hcl & Ha & Hr & ->).
    run_script. apply list_elem_of_here.
  - run_script; simpl; lia.
Qed.

(** ** The shape of every log *)

(** X5: under any module name and in any world, failing or not, the
    calls the script makes are an initial part of one fixed sequence,
    that of its statements in source order; and every call but the last
    one returned. *)
Theorem calls_prefix_of_script (w : World) (__name__ : string) :
  ∃ s,
    calls (agent_py w __name__ []).1 `prefix_of` script_calls (environ w) s ∧
    Forall (λ en : entry, en.2 = None) (removelast (agent_py w __name__ []).1).
Proof.
  run_script.
  all: match goal with
       | |- context [CallPrint ?s] => exists s
       | |- _ => exists EmptyString
       end.
  all: split; [|simpl; repeat constructor].
  all: match goal with
       | |- calls ?t `prefix_of` ?l =>
           exists (drop (List.length t) l); reflexivity
       end.
Qed.

(** ** Importing the module *)

(** X7: executed under a module name other than [__main__], the module
    ends without exception exactly when its four module-level calls
    return: the credential constructor, the token request, the client
    constructor and [create_agent].  What the agent's [run] would
    answer plays no part. *)
Theorem import_succeeds_iff (w : World) (__name__ : string) :
  __name__ ≠ "__main__" →
  (agent_py w __name__ []).2 = Ok () ↔
  ∃ c tk cl a,
    DefaultAzureCredential w = Ok c ∧
    get_token c "https://ai.azure.com/.default" = Ok tk ∧
    AzureOpenAIChatClient w
      {| endpoint := environ w !! "AZURE_OPENAI_ENDPOINT";
         deployment_name := environ w !! "AZURE_OPENAI_CHAT_DEPLOYMENT_NAME";
         api_version := environ w !! "AZURE_OPENAI_API_VERSION";
         api_key := EmptyString |} = Ok cl ∧
    create_agent cl "You are good at telling jokes." "Joker" = Ok a.
Proof.
  intros Hname. apply String.eqb_neq in Hname. split.
  - run_script; intros Hok; try discriminate Hok.
    do 4 eexists. repeat (split; [first [eassumption | reflexivity]|]).
    first [eassumption | reflexivity].
  - intros (c & tk & cl & a & Hc & Htk & Hcl & Ha).
    run_script. reflexivity.
Qed.

Lemma import_succeeds_failing_run :
  (python failing_run_world).2 = Raise ServiceResponseException ∧
  (import_agent failing_run_world).2 = Ok ().
Proof.
  split; [vm_compute; reflexivity|].
  apply (import_succeeds_iff failing_run_world "agent"); [discriminate|].
  exists (mock_credential "eyJ0eXAi"),
         {| token := "eyJ0eXAi"; expires_on := 1762128000 |},
         {| create_agent := λ _ _, Ok failing_agent |},
         failing_agent.
  repeat split.
Defined.
